(** * build_state.py: configuration and journaled build state

    A shallow embedding of
    [tools/cell_census_builder/src/cell_census_builder/build_state.py]
    and the properties of its namespaces, its layered configuration, its
    journaled state and the build arguments that bind them. *)

From Stdlib Require Import ZArith Ascii.
From stdpp Require Import gmap strings list fin_maps.

Set Warnings "-register-all,-clear-no-such-hyp".
Local Open Scope Z_scope.
Local Open Scope string_scope.
Local Open Scope list_scope.

(** ** Python values

    The objects that [yaml.safe_load] builds and that the build keeps in
    its namespaces: [None], booleans, integers, strings, lists and dicts.
    A [str] is a Rocq [string], one [ascii] per character.  A dict is the
    list of its items in insertion order; a Python dict holds each key
    once.  Floats (and with them NaN, the one value that differs from
    itself) are not represented. *)

Inductive value : Type :=
  | VNone
  | VBool (b : bool)
  | VInt (n : Z)
  | VStr (s : string)
  | VList (items : list value)
  | VDict (items : list (value * value)).

(** [a == b].  [bool] is a subclass of [int]: [True == 1], [False == 0].
    Lists compare item by item; dicts compare as mappings, whatever the
    order of their items. *)
Fixpoint py_eq (a b : value) {struct a} : bool :=
  match a with
  | VNone => match b with VNone => true | _ => false end
  | VBool x =>
      match b with
      | VBool y => Bool.eqb x y
      | VInt y => Z.eqb (Z.b2z x) y
      | _ => false
      end
  | VInt x =>
      match b with
      | VInt y => Z.eqb x y
      | VBool y => Z.eqb x (Z.b2z y)
      | _ => false
      end
  | VStr x => match b with VStr y => String.eqb x y | _ => false end
  | VList xs =>
      match b with
      | VList ys =>
          (fix items_eq (xs ys : list value) {struct xs} : bool :=
             match xs, ys with
             | [], [] => true
             | x :: xs', y :: ys' => py_eq x y && items_eq xs' ys'
             | _, _ => false
             end) xs ys
      | _ => false
      end
  | VDict d1 =>
      match b with
      | VDict d2 =>
          Nat.eqb (length d1) (length d2) &&
          (fix each (d : list (value * value)) {struct d} : bool :=
             match d with
             | [] => true
             | (k1, v1) :: d' =>
                 (fix find (e : list (value * value)) {struct e} : bool :=
                    match e with
                    | [] => false
                    | (k2, v2) :: e' =>
                        if py_eq k1 k2 then py_eq v1 v2 else find e'
                    end) d2
                 && each d'
             end) d1
      | _ => false
      end
  end.

(** [isinstance(v, str)] and [isinstance(v, dict)]. *)
Definition is_str (v : value) : bool :=
  match v with VStr _ => true | _ => false end.

Definition is_dict (v : value) : bool :=
  match v with VDict _ => true | _ => false end.

(** Lists and dicts have no hash; they cannot be dict keys. *)
Definition hashable (v : value) : bool :=
  match v with VList _ | VDict _ => false | _ => true end.

(** ** Exceptions and outcomes

    [TypeError None] is a [TypeError] without a message of the program's
    own: the bare [raise TypeError], and the ones the interpreter raises
    (a key without a hash, a keyword that is not a string, an object that
    is not iterable). *)

Inductive exn : Type :=
  | TypeError (msg : option string)
  | ValueError
  | KeyError (key : string)
  | OSError (path : string)
  | YAMLError.

Inductive outcome (A : Type) : Type :=
  | Return (a : A)
  | Raise (e : exn).
Arguments Return {A} a.
Arguments Raise {A} e.

#[global] Instance outcome_ret : MRet outcome := @Return.
#[global] Instance outcome_bind : MBind outcome :=
  fun A B k c => match c with Return a => k a | Raise e => Raise e end.

Definition is_TypeError {A : Type} (c : outcome A) : Prop :=
  exists msg, c = Raise (TypeError msg).

(** ** Python dicts with keys of any type

    [yaml.safe_load] builds them, and [CensusBuildState.load] folds them. *)

Abbreviation dict := (list (value * value)).

(** [d[k] = v]: an equal key keeps its place (and the key object it had). *)
Fixpoint dict_setitem (d : dict) (k v : value) : dict :=
  match d with
  | [] => [(k, v)]
  | (k', v') :: d' =>
      if py_eq k' k then (k', v) :: d' else (k', v') :: dict_setitem d' k v
  end.

Fixpoint characters (s : string) : list value :=
  match s with
  | EmptyString => []
  | String c s' => VStr (String c "") :: characters s'
  end.

(** [list(v)]: the characters of a string, the items of a list, the keys
    of a dict. *)
Definition iterate (v : value) : outcome (list value) :=
  match v with
  | VStr s => Return (characters s)
  | VList items => Return items
  | VDict items => Return (items.*1)
  | _ => Raise (TypeError None)
  end.

(** [d.update(other)].  A dict is merged item by item.  Anything else is
    iterated, and every element must itself iterate to a key and a value. *)
Definition dict_update_pair (acc : outcome dict) (elem : value) : outcome dict :=
  d ← acc;
  kv ← iterate elem;
  match kv with
  | [k; v] =>
      if hashable k then Return (dict_setitem d k v) else Raise (TypeError None)
  | _ => Raise ValueError
  end.

Definition dict_update (d : dict) (other : value) : outcome dict :=
  match other with
  | VDict items => Return (foldl (fun acc kv => dict_setitem acc kv.1 kv.2) d items)
  | _ => elems ← iterate other; foldl dict_update_pair (Return d) elems
  end.

(** [f(self, **d)]: how a dict becomes the keyword arguments of a method.
    Every key must be a string, and none may be the name of the one
    positional parameter, [self]. *)
Fixpoint keywords (d : dict) : outcome (gmap string value) :=
  match d with
  | [] => Return ∅
  | (VStr k, v) :: d' =>
      if String.eqb k "self" then Raise (TypeError None)
      else kwargs ← keywords d'; Return (<[k := v]> kwargs)
  | _ :: _ => Raise (TypeError None)
  end.

(** The items of a dict whose keys are strings, as [yaml.dump] writes it
    and [yaml.safe_load] reads it back. *)
Definition dict_items (m : gmap string value) : dict :=
  (fun kv => (VStr kv.1, kv.2)) <$> map_to_list m.

(** ** Files

    A text file is the list of the YAML documents it holds, as
    [yaml.safe_load_all] yields them; [yaml.dump] followed by
    [yaml.safe_load] gives back the dict that was dumped.  A path may
    refuse to be opened for appending (a missing directory, a permission)
    or refuse to be written (a full disk).  [trace] keeps every call to
    [open] and to [write], newest first. *)

Inductive io_event : Type :=
  | Open (path mode : string)
  | Write (path timestamp : string) (body : gmap string value).

Record World : Type := mkWorld {
  files : gmap string (list value);
  unopenable : gset string;
  unwritable : gset string;
  trace : list io_event
}.

Definition record_event (ev : io_event) (w : World) : World :=
  mkWorld (files w) (unopenable w) (unwritable w) (ev :: trace w).

(** [with open(path) as f]: reading needs the file to be there. *)
Definition open_read (path : string) (w : World) : outcome (list value) * World :=
  let w' := record_event (Open path "r") w in
  match files w !! path with
  | Some documents => (Return documents, w')
  | None => (Raise (OSError path), w')
  end.

(** [open(path, mode="a")]: creates the file when it is missing. *)
Definition open_append (path : string) (w : World) : outcome unit * World :=
  let w' := record_event (Open path "a") w in
  if bool_decide (path ∈ unopenable w) then (Raise (OSError path), w')
  else
    (Return (),
     mkWorld (<[path := default [] (files w !! path)]> (files w))
             (unopenable w') (unwritable w') (trace w')).

(** [state_log.write("--- # " + timestamp + "\n" + yaml.dump(body))] on a
    file opened for appending: one more document at the end. *)
Definition write_record (path timestamp : string) (body : gmap string value)
    (w : World) : outcome unit * World :=
  let w' := record_event (Write path timestamp body) w in
  if bool_decide (path ∈ unwritable w) then (Raise (OSError path), w')
  else
    (Return (),
     mkWorld (<[path := (default [] (files w !! path) ++ [VDict (dict_items body)])%list]>
                (files w))
             (unopenable w') (unwritable w') (trace w')).

(** What [load] is given: a path to open, or a stream already open. *)
Inductive source : Type :=
  | Path (path : string)
  | Stream (documents : list value).

Definition read_documents (file : source) (w : World) : outcome (list value) * World :=
  match file with
  | Path path => open_read path w
  | Stream documents => (Return documents, w)
  end.

(** [yaml.safe_load]: the one document of the stream, [None] when there is
    none. *)
Definition yaml_safe_load (documents : list value) : outcome value :=
  match documents with
  | [] => Return VNone
  | [document] => Return document
  | _ => Raise YAMLError
  end.

(** ** Namespace and MutableNamespace *)

Record Namespace : Type := mkNamespace { _state : gmap string value }.

(** [Namespace.__init__(self, **kwargs)] *)
Definition Namespace_init (kwargs : gmap string value) : Namespace :=
  mkNamespace kwargs.

(** [Namespace.__contains__] *)
Definition Namespace_contains (self : Namespace) (key : string) : bool :=
  bool_decide (is_Some (_state self !! key)).

(** [Namespace.__getitem__] and [Namespace.__getattr__] *)
Definition Namespace_getitem (self : Namespace) (key : string) : outcome value :=
  match _state self !! key with
  | Some v => Return v
  | None => Raise (KeyError key)
  end.

Definition Namespace_getattr (self : Namespace) (key : string) : outcome value :=
  Namespace_getitem self key.

(** [MutableNamespace.__setitem__] *)
Definition MutableNamespace_setitem (self : Namespace) (key v : value) : outcome Namespace :=
  match key with
  | VStr k => Return (mkNamespace (<[k := v]> (_state self)))
  | _ => Raise (TypeError None)
  end.

(** ** CensusBuildConfig *)

(** What the defaults read from the host when the module is imported: the
    local date in ISO format and the size of the physical memory. *)
Record Host : Type := mkHost {
  today : string;
  virtual_memory_total : Z
}.

(** The quotient of [max_workers] is taken in floats and truncated by
    [int]; below [2 ^ 53] bytes of memory that is the integer quotient. *)
Definition CENSUS_CONFIG_DEFAULTS (host : Host) : gmap string value :=
  list_to_map [
    ("verbose", VInt 1);
    ("log_dir", VStr "logs");
    ("log_file", VStr "build.log");
    ("consolidate", VBool true);
    ("disable_dirty_git_check", VBool true);
    ("cell_census_S3_path", VStr "s3://cellxgene-data-public/cell-census");
    ("build_tag", VStr (today host));
    ("multi_process", VBool true);
    ("max_workers", VInt (2 + virtual_memory_total host / (96 * 1024 ^ 3)));
    ("host_validation_disable", VBool false);
    ("host_validation_min_physical_memory", VInt (512 * 1024 ^ 3));
    ("host_validation_min_swap_memory", VInt (2 * 1024 ^ 4));
    ("host_validation_min_free_disk_space", VInt (1 * 1024 ^ 4));
    ("manifest", VNone);
    ("test_first_n", VNone)
  ].

(** [d.update(other)] on dicts with string keys. *)
Definition update (d other : gmap string value) : gmap string value := other ∪ d.

(** [CensusBuildConfig.__init__(self, **kwargs)] *)
Definition CensusBuildConfig_init (host : Host) (kwargs : gmap string value) : Namespace :=
  let config := CENSUS_CONFIG_DEFAULTS host in
  let config := update config kwargs in
  Namespace_init config.

(** [CensusBuildConfig.load(file)] *)
Definition CensusBuildConfig_load (host : Host) (file : source) (w : World)
    : outcome Namespace * World :=
  let '(documents, w') := read_documents file w in
  (documents ← documents;
   user_config ← yaml_safe_load documents;
   let user_config :=
     match user_config with VNone => VDict [] | _ => user_config end in
   match user_config with
   | VDict items =>
       kwargs ← keywords items;
       Return (CensusBuildConfig_init host kwargs)
   | _ =>
       Raise (TypeError (Some "YAML config file malformed - expected top-level dictionary"))
   end,
   w').

(** ** CensusBuildState *)

Record CensusBuildState : Type := mkState {
  base :> Namespace;
  __dirty_keys : gset string
}.

(** [CensusBuildState.__init__(self, **kwargs)] *)
Definition CensusBuildState_init (kwargs : gmap string value) : CensusBuildState :=
  mkState (Namespace_init kwargs) (dom kwargs).

(** [self._state.get(key)]: [None] when the key is missing.  The keys of
    [_state] are strings, so a key of another type is never found; a key
    without a hash cannot even be looked up. *)
Definition state_get (self : Namespace) (key : value) : outcome value :=
  match key with
  | VStr k => Return (default VNone (_state self !! k))
  | VList _ | VDict _ => Raise (TypeError None)
  | _ => Return VNone
  end.

(** [self.__dirty_keys.add(key)], reached with string keys only: for any
    other key [MutableNamespace.__setitem__] has raised. *)
Definition dirty_add (key : value) (dirty : gset string) : gset string :=
  match key with
  | VStr k => {[k]} ∪ dirty
  | _ => dirty
  end.

(** [CensusBuildState.__setitem__] *)
Definition CensusBuildState_setitem (self : CensusBuildState) (key v : value)
    : outcome CensusBuildState :=
  current ← state_get self key;
  if py_eq current v then Return self
  else
    ns ← MutableNamespace_setitem self key v;
    Return (mkState ns (dirty_add key (__dirty_keys self))).

(** [functools.reduce(lambda acc, r: acc.update(r) or acc, documents, {})] *)
Definition reduce_update (documents : list value) : outcome dict :=
  foldl (fun acc r => d ← acc; dict_update d r) (Return []) documents.

(** [CensusBuildState.load(file)] *)
Definition CensusBuildState_load (file : source) (w : World)
    : outcome CensusBuildState * World :=
  let '(documents, w') := read_documents file w in
  (documents ← documents;
   acc ← reduce_update documents;
   kwargs ← keywords acc;
   let state := CensusBuildState_init kwargs in
   Return (mkState state ∅),
   w').

(** [{k: self[k] for k in self.__dirty_keys}] *)
Definition dirty_items (self : CensusBuildState) : outcome (gmap string value) :=
  foldr (fun k acc => v ← Namespace_getitem self k; d ← acc; Return (<[k := v]> d))
        (Return ∅) (elements (__dirty_keys self)).

(** [CensusBuildState.commit(file)], with [now] for what
    [datetime.now().isoformat()] returns.  The object is mutated in place:
    the state it is left in is returned whether or not the call raises. *)
Definition CensusBuildState_commit (now : string) (self : CensusBuildState)
    (file : string) (w : World) : outcome unit * CensusBuildState * World :=
  if bool_decide (__dirty_keys self ≠ ∅) then
    match dirty_items self with
    | Raise e => (Raise e, self, w)
    | Return dirty =>
        let self := mkState self ∅ in
        let '(opened, w) := open_append file w in
        match opened with
        | Raise e => (Raise e, self, w)
        | Return _ =>
            let '(written, w) := write_record file now dirty w in
            (written, self, w)
        end
    end
  else (Return (), self, w).

(** A build sets keys and commits, always to the same log; it stops at the
    first exception. *)
Inductive op : Type :=
  | SetItem (key : string) (v : value)
  | Commit (now : string).

Definition step (log : string) (o : op) (self : CensusBuildState) (w : World)
    : outcome unit * CensusBuildState * World :=
  match o with
  | SetItem key v =>
      match CensusBuildState_setitem self (VStr key) v with
      | Return self' => (Return (), self', w)
      | Raise e => (Raise e, self, w)
      end
  | Commit now => CensusBuildState_commit now self log w
  end.

Fixpoint run (log : string) (ops : list op) (self : CensusBuildState) (w : World)
    : outcome unit * CensusBuildState * World :=
  match ops with
  | [] => (Return (), self, w)
  | o :: ops' =>
      match step log o self w with
      | (Return _, self', w') => run log ops' self' w'
      | raised => raised
      end
  end.

(** ** Paths

    [pathlib.PosixPath]: a root and the parts below it.  Parsing drops
    empty parts and [.]; exactly two leading slashes are a root of their
    own. *)

Record PosixPath : Type := mkPath {
  root : string;
  parts : list string
}.

(** [s.split("/")] *)
Fixpoint split_slash (s : string) : list string :=
  match s with
  | EmptyString => [""]
  | String c s' =>
      if Ascii.eqb c "/"%char then "" :: split_slash s'
      else
        match split_slash s' with
        | x :: xs => String c x :: xs
        | [] => [String c ""]
        end
  end.

Definition path_root (s : string) : string :=
  match s with
  | String "/"%char (String "/"%char (String "/"%char _)) => "/"
  | String "/"%char (String "/"%char _) => "//"
  | String "/"%char _ => "/"
  | _ => ""
  end.

Definition parse_path (s : string) : PosixPath :=
  mkPath (path_root s)
         (filter (fun part => part ≠ "" ∧ part ≠ ".") (split_slash s)).

(** [self / key]: an absolute [key] replaces [self]. *)
Definition truediv (self : PosixPath) (key : string) : PosixPath :=
  let other := parse_path key in
  if String.eqb (root other) "" then mkPath (root self) (parts self ++ parts other)
  else other.

Declare Scope path_scope.
Infix "/" := truediv : path_scope.
Delimit Scope path_scope with path.
Bind Scope path_scope with PosixPath.

(** ** CensusBuildArgs *)

Record CensusBuildArgs : Type := mkArgs {
  working_dir : PosixPath;
  config : Namespace;
  state : CensusBuildState
}.

(** [CensusBuildArgs.build_tag] *)
Definition build_tag (self : CensusBuildArgs) : outcome string :=
  build_tag ← Namespace_getattr (config self) "build_tag";
  match build_tag with
  | VStr tag => Return tag
  | _ => Raise (TypeError (Some "Configuration contains non-string build_tag."))
  end.

(** [CensusBuildArgs.soma_path] and [CensusBuildArgs.h5ads_path] *)
Definition soma_path (self : CensusBuildArgs) : outcome PosixPath :=
  tag ← build_tag self; Return (working_dir self / tag / "soma")%path.

Definition h5ads_path (self : CensusBuildArgs) : outcome PosixPath :=
  tag ← build_tag self; Return (working_dir self / tag / "h5ads")%path.

(** ** The vocabulary of the properties *)

(** The value a write is compared with: the stored one, [None] for a
    key that is not stored. *)
Definition current (self : CensusBuildState) (k : string) : value :=
  default VNone (_state self !! k).

(** Every dirty key is stored.  The constructor, the writes, [load] and
    [commit] keep it so. *)
Definition dirty_stored (self : CensusBuildState) : Prop :=
  __dirty_keys self ⊆ dom (_state self).

(** The dirty keys with the values now stored for them. *)
Definition dirty_record (self : CensusBuildState) : gmap string value :=
  filter (fun kv => kv.1 ∈ __dirty_keys self) (_state self).

(** The world after one document has been appended to [log]. *)
Definition appended (log now : string) (body : gmap string value) (w : World) : World :=
  mkWorld (<[log := (default [] (files w !! log) ++ [VDict (dict_items body)])%list]> (files w))
          (unopenable w) (unwritable w)
          (Write log now body :: Open log "a" :: trace w).

(** Decidable facts about concrete maps and sets, by evaluation. *)
Ltac by_computation := apply (bool_decide_unpack _); vm_compute; exact I.

(** A world with an empty log that can be appended to, and the state of
    the examples: [a] stored and clean, [b] stored and dirty. *)
Definition example_world : World := mkWorld {["state.yaml" := []]} ∅ ∅ [].

Definition example_state : CensusBuildState :=
  mkState (mkNamespace {["a" := VInt 1; "b" := VInt 3]}) {["b"]}.

Fixpoint keys_set (ops : list op) : gset string :=
  match ops with
  | [] => ∅
  | SetItem k _ :: ops' => {[k]} ∪ keys_set ops'
  | Commit _ :: ops' => keys_set ops'
  end.

(** A call to [write] whose document holds keys of [keys] only. *)
Definition writes_within (keys : gset string) (ev : io_event) : Prop :=
  match ev with
  | Write _ _ body => dom body ⊆ keys
  | Open _ _ => True
  end.

(** The same world with a log that cannot be opened for appending. *)
Definition locked_world : World :=
  mkWorld {["state.yaml" := []]} {["state.yaml"]} ∅ [].

(** The document that [commit] writes for a record. *)
Definition record_document (record : gmap string value) : value :=
  VDict (dict_items record).

(** The records of a log folded in file order, later values winning. *)
Definition replay (records : list (gmap string value)) : gmap string value :=
  foldl update ∅ records.

(** No key is the name of the parameter [self]. *)
Definition self_free (m : gmap string value) : Prop := m !! "self" = None.

(** [d.get(k)] on a dict with keys of any type. *)
Fixpoint dict_get (d : dict) (k : value) : option value :=
  match d with
  | [] => None
  | (k', v) :: d' => if py_eq k' k then Some v else dict_get d' k
  end.

(** The mapping a configuration document stands for: its top-level dict,
    and the dict without items for the empty document. *)
Definition user_mapping (documents : list value) : option dict :=
  match documents with
  | [] | [VNone] => Some []
  | [VDict items] => Some items
  | _ => None
  end.

(** A key that can be a keyword argument. *)
Definition keyword_key (kv : value * value) : Prop :=
  exists k, kv.1 = VStr k /\ k ≠ "self".

Definition example_host : Host := mkHost "2023-05-01" (256 * 1024 ^ 3).


(** What a build keeps true between its operations: the log holds the
    records committed so far and can take more; every key that is not
    dirty has in the log the value it has in memory. *)
Record journal (log : string) (self : CensusBuildState) (w : World)
    (records : list (gmap string value)) : Prop := mkJournal {
  journal_file : files w !! log = Some (record_document <$> records);
  journal_opens : log ∉ unopenable w;
  journal_writes : log ∉ unwritable w;
  journal_records : Forall self_free records;
  journal_state : self_free (_state self);
  journal_stored : dirty_stored self;
  journal_clean :
    forall k, k ∉ __dirty_keys self -> replay records !! k = _state self !! k
}.

(** [Namespace.__len__] *)
Definition Namespace_len (self : Namespace) : nat := size (_state self).


(** [None], booleans and integers cannot be iterated. *)
Definition not_iterable (v : value) : bool :=
  match v with VNone | VBool _ | VInt _ => true | _ => false end.

(** What a call of [open] or [write] made by a build on [log] looks
    like: the log opened for appending, or a record written to it. *)
Definition journal_event (log : string) (ev : io_event) : Prop :=
  ev = Open log "a" \/ exists now body, ev = Write log now body.

(** A world whose log holds one record, [a: 1]. *)
Definition resumed_world : World :=
  mkWorld {["state.yaml" := [record_document {["a" := VInt 1]}]]} ∅ ∅ [].

(** A YAML document that lists the items of a mapping as [[key, value]]
    pairs. *)
Definition pairs_document (items : dict) : value :=
  VList ((fun kv => VList [kv.1; kv.2]) <$> items).

(** * Properties *)

(** ** The model at work *)

Example py_eq_bool_int : py_eq (VInt 1) (VBool true) = true.
Proof. reflexivity. Qed.

Example py_eq_dict_order :
  py_eq (VDict [(VStr "a", VInt 1); (VStr "b", VNone)])
        (VDict [(VStr "b", VNone); (VStr "a", VInt 1)]) = true.
Proof. reflexivity. Qed.

Example dict_update_pairs :
  dict_update [] (VList [VList [VStr "a"; VInt 1]; VStr "bc"])
  = Return [(VStr "a", VInt 1); (VStr "b", VStr "c")].
Proof. reflexivity. Qed.

Example dict_update_None : dict_update [] VNone = Raise (TypeError None).
Proof. reflexivity. Qed.

(** ** Equality of values *)

Lemma py_eq_None_l (v : value) : py_eq VNone v = true <-> v = VNone.
Proof. destruct v; simpl; split; congruence. Qed.

Lemma py_eq_str_eqb (a b : string) : py_eq (VStr a) (VStr b) = String.eqb a b.
Proof. reflexivity. Qed.

Lemma py_eq_str (a b : string) : py_eq (VStr a) (VStr b) = true <-> a = b.
Proof. rewrite py_eq_str_eqb. apply String.eqb_eq. Qed.

(** ** Writing a key *)

Section SetItem.
Variable self : CensusBuildState.

Lemma setitem_same (k : string) (v : value) :
  py_eq (current self k) v = true ->
  CensusBuildState_setitem self (VStr k) v = Return self.
Proof.
  intros Heq. unfold CensusBuildState_setitem. simpl.
  unfold current in Heq. now rewrite Heq.
Qed.

Lemma setitem_new (k : string) (v : value) :
  py_eq (current self k) v = false ->
  CensusBuildState_setitem self (VStr k) v
  = Return (mkState (mkNamespace (<[k := v]> (_state self)))
                    ({[k]} ∪ __dirty_keys self)).
Proof.
  intros Hne. unfold CensusBuildState_setitem. simpl.
  unfold current in Hne. now rewrite Hne.
Qed.

(** A write with a string key never raises. *)
Lemma setitem_str_returns (k : string) (v : value) :
  exists self', CensusBuildState_setitem self (VStr k) v = Return self'.
Proof.
  destruct (py_eq (current self k) v) eqn:E.
  - eexists. now apply setitem_same.
  - eexists. now apply setitem_new.
Qed.

(** After a write, reading the key gives the value written or the
    equal value that was there, unless the key was missing and [None]
    was written. *)
Lemma setitem_then_getitem (k : string) (v : value) (self' : CensusBuildState) :
  CensusBuildState_setitem self (VStr k) v = Return self' ->
  is_Some (_state self !! k) \/ v <> VNone ->
  exists v', Namespace_getitem self' k = Return v'
             /\ (v' = v \/ py_eq v' v = true).
Proof.
  intros Hset Hk. destruct (py_eq (current self k) v) eqn:E.
  - rewrite (setitem_same _ _ E) in Hset. inversion Hset. subst self'.
    unfold Namespace_getitem. unfold current in E.
    destruct (_state self !! k) as [v0|] eqn:L; simpl in E.
    + exists v0. auto.
    + apply py_eq_None_l in E. destruct Hk as [[? ?]|Hk]; congruence.
  - rewrite (setitem_new _ _ E) in Hset. inversion Hset. subst self'.
    unfold Namespace_getitem. simpl. rewrite lookup_insert_eq.
    exists v. auto.
Qed.

(** A key that is not a string is refused by the check of
    [MutableNamespace.__setitem__] whenever the write gets that far,
    that is whenever the value is not [None]. *)
Lemma setitem_not_str (key v : value) :
  is_str key = false -> v <> VNone ->
  is_TypeError (CensusBuildState_setitem self key v).
Proof.
  intros Hkey Hv. unfold CensusBuildState_setitem.
  destruct key; try discriminate Hkey;
    destruct v; try (now destruct Hv); now exists None.
Qed.
End SetItem.

Lemma MutableNamespace_setitem_str (self : Namespace) (k : string) (v : value) :
  MutableNamespace_setitem self (VStr k) v
  = Return (mkNamespace (<[k := v]> (_state self))).
Proof. reflexivity. Qed.

Lemma MutableNamespace_setitem_not_str (self : Namespace) (key v : value) :
  is_str key = false -> MutableNamespace_setitem self key v = Raise (TypeError None).
Proof. destruct key; simpl; congruence. Qed.

(** ** The dirty keys *)

Lemma dirty_stored_init (kwargs : gmap string value) :
  dirty_stored (CensusBuildState_init kwargs).
Proof. unfold dirty_stored. simpl. reflexivity. Qed.

Lemma dirty_stored_clear (ns : Namespace) : dirty_stored (mkState ns ∅).
Proof. unfold dirty_stored. simpl. set_solver. Qed.

Lemma dirty_stored_setitem (self self' : CensusBuildState) (key v : value) :
  dirty_stored self ->
  CensusBuildState_setitem self key v = Return self' ->
  dirty_stored self'.
Proof.
  unfold dirty_stored, CensusBuildState_setitem. intros Hwf Hset.
  destruct (state_get self key) as [cur|] eqn:G; simpl in Hset; [|discriminate].
  destruct (py_eq cur v); [now simplify_eq|].
  destruct key; simpl in Hset; try discriminate.
  simplify_eq. simpl. rewrite dom_insert_L. set_solver.
Qed.

Lemma dirty_stored_load (file : source) (w w' : World) (self : CensusBuildState) :
  CensusBuildState_load file w = (Return self, w') -> dirty_stored self.
Proof.
  unfold CensusBuildState_load.
  destruct (read_documents file w) as [[documents|e] w1]; simpl; [|discriminate].
  destruct (reduce_update documents) as [acc|e]; simpl; [|discriminate].
  destruct (keywords acc) as [kwargs|e]; simpl; [|discriminate].
  intros H. simplify_eq. apply dirty_stored_clear.
Qed.

Lemma dirty_record_lookup (self : CensusBuildState) (k : string) :
  dirty_record self !! k
  = if decide (k ∈ __dirty_keys self) then _state self !! k else None.
Proof.
  unfold dirty_record. apply option_eq. intros x.
  rewrite map_lookup_filter_Some. simpl.
  destruct (decide (k ∈ __dirty_keys self)); naive_solver.
Qed.

Lemma dirty_record_dom (self : CensusBuildState) :
  dirty_stored self -> dom (dirty_record self) = __dirty_keys self.
Proof.
  intros Hwf. apply set_eq. intros k.
  rewrite elem_of_dom, dirty_record_lookup.
  destruct (decide (k ∈ __dirty_keys self)) as [Hk|Hk].
  - split; [done|]. intros _. apply elem_of_dom. now apply Hwf.
  - split; [intros [? ?]; discriminate | done].
Qed.

Lemma dirty_record_init (kwargs : gmap string value) :
  dirty_record (CensusBuildState_init kwargs) = kwargs.
Proof.
  apply map_eq. intros k. rewrite dirty_record_lookup. simpl.
  destruct (decide (k ∈ dom kwargs)) as [|Hk]; [done|].
  symmetry. now apply not_elem_of_dom.
Qed.

(** The comprehension of [commit] over any list of stored keys. *)
Lemma comprehension_stored (ns : Namespace) (keys : list string) :
  (forall k, k ∈ keys -> is_Some (_state ns !! k)) ->
  foldr (fun k acc => v ← Namespace_getitem ns k; d ← acc; Return (<[k := v]> d))
        (Return ∅) keys
  = Return (filter (fun kv => kv.1 ∈ keys) (_state ns)).
Proof.
  induction keys as [|k keys IH]; intros Hall; simpl.
  - f_equal. symmetry. apply map_empty. intros i.
    apply map_lookup_filter_None. right. intros x _. simpl. apply not_elem_of_nil.
  - rewrite IH by (intros j Hj; apply Hall; now right).
    destruct (Hall k) as [v Hv]; [now left|].
    unfold Namespace_getitem. rewrite Hv. simpl. f_equal.
    apply map_eq. intros j. apply option_eq. intros x.
    rewrite lookup_insert_Some, !map_lookup_filter_Some. simpl.
    rewrite elem_of_cons. destruct (decide (k = j)); naive_solver.
Qed.

Lemma dirty_items_stored (self : CensusBuildState) :
  dirty_stored self -> dirty_items self = Return (dirty_record self).
Proof.
  intros Hwf. unfold dirty_items. rewrite comprehension_stored.
  - f_equal. apply map_filter_ext. intros k x _. simpl.
    apply elem_of_elements.
  - intros k Hk. apply elem_of_dom, Hwf. now apply elem_of_elements.
Qed.

(** ** Commit *)

Section Commit.
Variables (now log : string) (w : World).

Lemma commit_clean (self : CensusBuildState) :
  __dirty_keys self = ∅ ->
  CensusBuildState_commit now self log w = (Return (), self, w).
Proof.
  intros He. unfold CensusBuildState_commit.
  rewrite bool_decide_eq_false_2; [reflexivity|]. now rewrite He.
Qed.

Lemma commit_dirty (self : CensusBuildState) :
  dirty_stored self -> __dirty_keys self ≠ ∅ ->
  log ∉ unopenable w -> log ∉ unwritable w ->
  CensusBuildState_commit now self log w
  = (Return (), mkState self ∅, appended log now (dirty_record self) w).
Proof.
  intros Hwf Hd Ho Hw. unfold CensusBuildState_commit.
  rewrite bool_decide_eq_true_2 by done.
  rewrite dirty_items_stored by done.
  unfold open_append, write_record. simpl.
  rewrite !bool_decide_eq_false_2 by done. simpl.
  unfold appended. rewrite lookup_insert_eq, insert_insert_eq. reflexivity.
Qed.

Lemma commit_cannot_open (self : CensusBuildState) :
  dirty_stored self -> __dirty_keys self ≠ ∅ -> log ∈ unopenable w ->
  CensusBuildState_commit now self log w
  = (Raise (OSError log), mkState self ∅, record_event (Open log "a") w).
Proof.
  intros Hwf Hd Ho. unfold CensusBuildState_commit.
  rewrite bool_decide_eq_true_2 by done.
  rewrite dirty_items_stored by done.
  unfold open_append. now rewrite bool_decide_eq_true_2 by done.
Qed.

Lemma commit_cannot_write (self : CensusBuildState) :
  dirty_stored self -> __dirty_keys self ≠ ∅ ->
  log ∉ unopenable w -> log ∈ unwritable w ->
  CensusBuildState_commit now self log w
  = (Raise (OSError log), mkState self ∅,
     mkWorld (<[log := default [] (files w !! log)]> (files w))
             (unopenable w) (unwritable w)
             (Write log now (dirty_record self) :: Open log "a" :: trace w)).
Proof.
  intros Hwf Hd Ho Hw. unfold CensusBuildState_commit.
  rewrite bool_decide_eq_true_2 by done.
  rewrite dirty_items_stored by done.
  unfold open_append, write_record. simpl.
  rewrite bool_decide_eq_false_2 by done. simpl.
  now rewrite bool_decide_eq_true_2 by done.
Qed.

(** Whatever happens, a commit that started with stored dirty keys
    leaves none. *)
Lemma commit_leaves_clean (self : CensusBuildState) :
  dirty_stored self ->
  __dirty_keys (CensusBuildState_commit now self log w).1.2 = ∅
  /\ _state (CensusBuildState_commit now self log w).1.2 = _state self.
Proof.
  intros Hwf.
  destruct (decide (__dirty_keys self = ∅)) as [He|Hd].
  - now rewrite commit_clean.
  - destruct (decide (log ∈ unopenable w)) as [Ho|Ho].
    + now rewrite commit_cannot_open.
    + destruct (decide (log ∈ unwritable w)) as [Hw|Hw].
      * now rewrite commit_cannot_write.
      * now rewrite commit_dirty.
Qed.
End Commit.

Lemma dirty_stored_commit (now log : string) (w : World) (self : CensusBuildState) :
  dirty_stored self ->
  dirty_stored (CensusBuildState_commit now self log w).1.2.
Proof.
  intros Hwf. destruct (commit_leaves_clean now log w self Hwf) as [Hclean _].
  unfold dirty_stored. rewrite Hclean. set_solver.
Qed.

Lemma example_state_stored : dirty_stored example_state.
Proof. by_computation. Qed.

Lemma example_state_dirty : __dirty_keys example_state ≠ ∅.
Proof. by_computation. Qed.

(** C2: with dirty keys (all of them stored, as they always are) and a log
    that can be opened and written, [commit] appends one document to the
    log, holding the dirty keys and only them, each with the value now
    stored, touches no other file and leaves no key dirty.  With no dirty
    key [commit] returns at once: no file is opened, none is written, the
    world is as it was.  So a commit that follows a commit does nothing. *)
Theorem commit_appends_the_dirty_record
    (self : CensusBuildState) (now log : string) (w : World) :
  dirty_stored self ->
  (__dirty_keys self ≠ ∅ -> log ∉ unopenable w -> log ∉ unwritable w ->
   exists body,
     CensusBuildState_commit now self log w
     = (Return (), mkState self ∅, appended log now body w)
     /\ dom body = __dirty_keys self
     /\ (forall k, k ∈ __dirty_keys self -> body !! k = _state self !! k)
     /\ files (appended log now body w) !! log
        = Some (default [] (files w !! log) ++ [VDict (dict_items body)])%list
     /\ (forall p, p ≠ log -> files (appended log now body w) !! p = files w !! p))
  /\ (__dirty_keys self = ∅ ->
      CensusBuildState_commit now self log w = (Return (), self, w))
  /\ (forall now' log',
        let '(_, self', w') := CensusBuildState_commit now self log w in
        CensusBuildState_commit now' self' log' w' = (Return (), self', w')).
Proof.
  intros Hwf. split; [|split].
  - intros Hd Ho Hw. exists (dirty_record self).
    split; [now apply commit_dirty|].
    split; [now apply dirty_record_dom|].
    split; [|split].
    + intros k Hk. rewrite dirty_record_lookup. now rewrite decide_True.
    + simpl. apply lookup_insert_eq.
    + intros p Hp. simpl. now apply lookup_insert_ne.
  - apply commit_clean.
  - intros now' log'.
    destruct (commit_leaves_clean now log w self Hwf) as [Hclean _].
    destruct (CensusBuildState_commit now self log w) as [[r self'] w'].
    simpl in Hclean. now apply commit_clean.
Qed.

Lemma commit_appends_the_dirty_record_witness :
  exists body,
    CensusBuildState_commit "t" example_state "state.yaml" example_world
    = (Return (), mkState example_state ∅,
       appended "state.yaml" "t" body example_world)
    /\ dom body = {["b"]}.
Proof.
  destruct (commit_appends_the_dirty_record example_state "t" "state.yaml"
              example_world example_state_stored) as [Hdirty _].
  destruct Hdirty as (body & Hc & Hdom & _).
  - exact example_state_dirty.
  - by_computation.
  - by_computation.
  - exists body. split; [exact Hc | exact Hdom].
Defined.

(** C10: built from keyword arguments, a state has every one of its keys
    dirty; its first commit, to a log that can be opened and written,
    appends one document holding all of them.  (Built from none, it has
    nothing to write.) *)
Theorem init_marks_every_key_dirty (kwargs : gmap string value) :
  __dirty_keys (CensusBuildState_init kwargs) = dom kwargs
  /\ _state (CensusBuildState_init kwargs) = kwargs
  /\ (forall now log w,
        kwargs ≠ ∅ -> log ∉ unopenable w -> log ∉ unwritable w ->
        CensusBuildState_commit now (CensusBuildState_init kwargs) log w
        = (Return (), mkState (Namespace_init kwargs) ∅, appended log now kwargs w)).
Proof.
  split; [reflexivity|]. split; [reflexivity|].
  intros now log w Hne Ho Hw.
  rewrite commit_dirty; try done.
  - now rewrite dirty_record_init.
  - apply dirty_stored_init.
  - simpl. intros He. apply Hne. now apply dom_empty_inv_L.
Qed.

Lemma init_marks_every_key_dirty_witness :
  CensusBuildState_commit "t" (CensusBuildState_init {["a" := VInt 1]})
                          "state.yaml" example_world
  = (Return (), mkState (Namespace_init {["a" := VInt 1]}) ∅,
     appended "state.yaml" "t" {["a" := VInt 1]} example_world).
Proof.
  apply (init_marks_every_key_dirty {["a" := VInt 1]}).
  - by_computation.
  - by_computation.
  - by_computation.
Defined.

(** ** What later commits can write *)

Lemma writes_within_mono (keys keys' : gset string) (ev : io_event) :
  keys ⊆ keys' -> writes_within keys ev -> writes_within keys' ev.
Proof. destruct ev; simpl; set_solver. Qed.

Lemma commit_trace (now log : string) (self : CensusBuildState) (w : World) :
  dirty_stored self ->
  forall ev, ev ∈ trace (CensusBuildState_commit now self log w).2 ->
             ev ∈ trace w \/ writes_within (__dirty_keys self) ev.
Proof.
  intros Hwf ev.
  destruct (decide (__dirty_keys self = ∅)) as [He|Hd].
  { rewrite commit_clean by done. auto. }
  assert (Hdom := dirty_record_dom self Hwf).
  destruct (decide (log ∈ unopenable w)) as [Ho|Ho].
  { rewrite commit_cannot_open by done. simpl.
    rewrite elem_of_cons. intros [->|?]; simpl; auto. }
  destruct (decide (log ∈ unwritable w)) as [Hw|Hw].
  - rewrite commit_cannot_write by done. simpl.
    rewrite !elem_of_cons. intros [->|[->|?]]; simpl; auto.
    right. now rewrite Hdom.
  - rewrite commit_dirty by done. simpl.
    rewrite !elem_of_cons. intros [->|[->|?]]; simpl; auto.
    right. now rewrite Hdom.
Qed.

Lemma step_invariant (log : string) (o : op) (self : CensusBuildState) (w : World) :
  dirty_stored self ->
  dirty_stored (step log o self w).1.2
  /\ __dirty_keys (step log o self w).1.2 ⊆ __dirty_keys self ∪ keys_set [o]
  /\ (forall ev, ev ∈ trace (step log o self w).2 ->
                 ev ∈ trace w \/ writes_within (__dirty_keys self) ev).
Proof.
  intros Hwf. destruct o as [k v|now]; simpl.
  - destruct (CensusBuildState_setitem self (VStr k) v) as [self'|e] eqn:Hset; simpl.
    + split; [eauto using dirty_stored_setitem|]. split; [|auto].
      destruct (py_eq (current self k) v) eqn:E.
      * rewrite setitem_same in Hset by done. simplify_eq. set_solver.
      * rewrite setitem_new in Hset by done. simplify_eq. simpl. set_solver.
    + split; [done|]. split; [set_solver|auto].
  - destruct (commit_leaves_clean now log w self Hwf) as [Hclean Hsame].
    split; [|split].
    + unfold dirty_stored. rewrite Hclean. set_solver.
    + rewrite Hclean. set_solver.
    + now apply commit_trace.
Qed.

(** Whatever a build writes holds only keys that were dirty when it
    started or that it has set itself. *)
Lemma run_writes (log : string) (ops : list op) :
  forall (self : CensusBuildState) (w : World),
    dirty_stored self ->
    forall ev, ev ∈ trace (run log ops self w).2 ->
               ev ∈ trace w \/ writes_within (__dirty_keys self ∪ keys_set ops) ev.
Proof.
  induction ops as [|o ops IH]; intros self w Hwf ev Hev.
  - auto.
  - assert (Hkeys : keys_set (o :: ops) = keys_set [o] ∪ keys_set ops).
    { destruct o; simpl; set_solver. }
    rewrite Hkeys.
    destruct (step_invariant log o self w Hwf) as (Hwf' & Hsub & Htr).
    cbn [run] in Hev.
    destruct (step log o self w) as [[r self'] w'] eqn:Hstep.
    cbn [fst snd] in Hwf', Hsub, Htr.
    destruct r as [[]|e].
    + destruct (IH self' w' Hwf' ev Hev) as [Hold|Hnew].
      * destruct (Htr ev Hold) as [?|Hin]; [auto|]. right.
        eapply writes_within_mono; [|exact Hin]. set_solver.
      * right. eapply writes_within_mono; [|exact Hnew]. set_solver.
    + cbn [snd] in Hev. destruct (Htr ev Hev) as [?|Hin]; [auto|]. right.
      eapply writes_within_mono; [|exact Hin]. set_solver.
Qed.

(** C9: when the log cannot be opened or cannot be written, [commit]
    raises [OSError] with the dirty keys already forgotten: the mapping is
    what it was, no document has reached any file, and the keys that were
    dirty are no longer so.  The next commit therefore does nothing, and
    whatever the build goes on to do, a later commit writes only keys that
    have been set again since. *)
Theorem failed_commit_forgets_dirty_keys
    (self : CensusBuildState) (now log : string) (w : World) :
  dirty_stored self -> __dirty_keys self ≠ ∅ ->
  log ∈ unopenable w \/ log ∈ unwritable w ->
  exists w',
    CensusBuildState_commit now self log w
    = (Raise (OSError log), mkState self ∅, w')
    /\ _state (mkState self ∅) = _state self
    /\ __dirty_keys (mkState self ∅) = ∅
    /\ (forall p, default [] (files w' !! p) = default [] (files w !! p))
    /\ (forall now' log' w'',
          CensusBuildState_commit now' (mkState self ∅) log' w''
          = (Return (), mkState self ∅, w''))
    /\ (forall log' ops w'' ev,
          ev ∈ trace (run log' ops (mkState self ∅) w'').2 ->
          ev ∈ trace w'' \/ writes_within (keys_set ops) ev).
Proof.
  intros Hwf Hd Hfail.
  assert (Hlater : forall log' ops w'' ev,
             ev ∈ trace (run log' ops (mkState self ∅) w'').2 ->
             ev ∈ trace w'' \/ writes_within (keys_set ops) ev).
  { intros log' ops w'' ev Hev.
    destruct (run_writes log' ops (mkState self ∅) w''
                (dirty_stored_clear self) ev Hev) as [?|Hin]; [auto|].
    right. eapply writes_within_mono; [|exact Hin]. simpl. set_solver. }
  destruct (decide (log ∈ unopenable w)) as [Ho|Ho].
  - eexists. split; [now apply commit_cannot_open|].
    do 3 (split; [reflexivity|]). split; [|exact Hlater].
    intros. now apply commit_clean.
  - destruct Hfail as [?|Hw]; [done|].
    eexists. split; [now apply commit_cannot_write|].
    do 2 (split; [reflexivity|]). split; [|split; [|exact Hlater]].
    + intros p. simpl. destruct (decide (p = log)) as [->|Hp].
      * rewrite lookup_insert_eq. reflexivity.
      * now rewrite lookup_insert_ne.
    + intros. now apply commit_clean.
Qed.

Lemma failed_commit_forgets_dirty_keys_witness :
  exists w',
    CensusBuildState_commit "t" example_state "state.yaml" locked_world
    = (Raise (OSError "state.yaml"), mkState example_state ∅, w').
Proof.
  destruct (failed_commit_forgets_dirty_keys example_state "t" "state.yaml"
              locked_world example_state_stored example_state_dirty)
    as (w' & Hc & _).
  - left. by_computation.
  - exists w'. exact Hc.
Defined.

(** ** Replaying a log *)

Lemma keywords_setitem (acc : dict) (k : string) (v : value) :
  forall m, keywords acc = Return m -> k ≠ "self" ->
            keywords (dict_setitem acc (VStr k) v) = Return (<[k := v]> m).
Proof.
  induction acc as [|[k' v'] acc IH]; intros m Hacc Hk; simpl in *.
  - simplify_eq. apply String.eqb_neq in Hk. now rewrite Hk.
  - destruct k' as [| | |s| |]; try discriminate.
    destruct (String.eqb s "self") eqn:Es; [discriminate|].
    destruct (keywords acc) as [m'|] eqn:Hm'; simpl in Hacc; [|discriminate].
    simplify_eq. rewrite py_eq_str_eqb.
    destruct (String.eqb s k) eqn:Esk; simpl; rewrite Es.
    + apply String.eqb_eq in Esk. subst s. rewrite Hm'. simpl.
      now rewrite insert_insert_eq.
    + apply String.eqb_neq in Esk. rewrite (IH m') by done. simpl.
      now rewrite insert_insert_ne.
Qed.

Lemma keywords_update_items (items : list (string * value)) :
  forall acc m,
    keywords acc = Return m ->
    Forall (fun kv => kv.1 ≠ "self") items ->
    keywords (foldl (fun acc kv => dict_setitem acc kv.1 kv.2) acc
                    ((fun kv => (VStr kv.1, kv.2)) <$> items))
    = Return (foldl (fun m kv => <[kv.1 := kv.2]> m) m items).
Proof.
  induction items as [|[k v] items IH]; intros acc m Hacc Hall; simpl.
  - exact Hacc.
  - inversion Hall as [|? ? Hk Hall']; subst. apply IH; [|exact Hall'].
    now apply keywords_setitem.
Qed.

Lemma foldl_insert_union (items : list (string * value)) :
  NoDup items.*1 ->
  forall m : gmap string value,
    foldl (fun m kv => <[kv.1 := kv.2]> m) m items = list_to_map items ∪ m.
Proof.
  induction items as [|[k v] items IH]; intros Hnd m; simpl.
  - now rewrite (left_id_L ∅ (∪)).
  - inversion Hnd as [|? ? Hk Hnd']; subst. rewrite IH by done.
    rewrite <- insert_union_l. symmetry. apply insert_union_r.
    now apply not_elem_of_list_to_map.
Qed.

(** Updating with a document written by [commit] is the update of the
    mappings. *)
Lemma dict_update_record (acc : dict) (m record : gmap string value) :
  keywords acc = Return m -> self_free record ->
  exists acc', dict_update acc (record_document record) = Return acc'
               /\ keywords acc' = Return (update m record).
Proof.
  intros Hacc Hfree. eexists. split; [reflexivity|].
  unfold dict_items. rewrite (keywords_update_items _ _ m); [|done|].
  - rewrite foldl_insert_union by apply NoDup_fst_map_to_list.
    now rewrite list_to_map_to_list.
  - apply Forall_forall. intros [k v] Hin Hk. simpl in Hk. subst k.
    apply elem_of_map_to_list in Hin. unfold self_free in Hfree. congruence.
Qed.

Lemma reduce_step (acc : dict) (document : value) (documents : list value) :
  foldl (fun acc r => d ← acc; dict_update d r) (Return acc) (document :: documents)
  = foldl (fun acc r => d ← acc; dict_update d r) (dict_update acc document) documents.
Proof. reflexivity. Qed.

Lemma reduce_update_records (records : list (gmap string value)) :
  Forall self_free records ->
  forall acc m,
    keywords acc = Return m ->
    exists acc',
      foldl (fun acc r => d ← acc; dict_update d r) (Return acc)
            (record_document <$> records) = Return acc'
      /\ keywords acc' = Return (foldl update m records).
Proof.
  induction 1 as [|record records Hfree _ IH]; intros acc m Hacc.
  - simpl. eauto.
  - destruct (dict_update_record acc m record Hacc Hfree) as (acc1 & Hup & Hk1).
    rewrite fmap_cons, reduce_step, Hup. now apply IH.
Qed.

(** Loading a log of records written by [commit] returns their replay,
    with no dirty key. *)
Lemma load_records (file : source) (w w' : World) (records : list (gmap string value)) :
  read_documents file w = (Return (record_document <$> records), w') ->
  Forall self_free records ->
  CensusBuildState_load file w
  = (Return (mkState (Namespace_init (replay records)) ∅), w').
Proof.
  intros Hread Hfree. unfold CensusBuildState_load. rewrite Hread. simpl.
  destruct (reduce_update_records records Hfree [] ∅ eq_refl) as (acc & Hred & Hk).
  unfold reduce_update. rewrite Hred. simpl. rewrite Hk. reflexivity.
Qed.

(** ** A build and its log *)

Lemma run_app (log : string) (ops1 ops2 : list op) :
  forall (self : CensusBuildState) (w : World),
    run log (ops1 ++ ops2) self w
    = match run log ops1 self w with
      | (Return _, self', w') => run log ops2 self' w'
      | raised => raised
      end.
Proof.
  induction ops1 as [|o ops1 IH]; intros self w; simpl.
  - reflexivity.
  - destruct (step log o self w) as [[[[]|e] self'] w']; [apply IH|reflexivity].
Qed.

Section Journal.
Variable log : string.

Lemma journal_init (kwargs : gmap string value) (w : World) :
  files w !! log = Some [] -> log ∉ unopenable w -> log ∉ unwritable w ->
  self_free kwargs ->
  journal log (CensusBuildState_init kwargs) w [].
Proof.
  intros Hfile Ho Hw Hfree. split; try done.
  - apply dirty_stored_init.
  - intros k Hk. simpl in *. unfold replay. simpl.
    rewrite lookup_empty. symmetry. now apply not_elem_of_dom.
Qed.

Lemma journal_setitem self w records (k : string) (v : value) :
  journal log self w records -> k ≠ "self" ->
  exists self',
    CensusBuildState_setitem self (VStr k) v = Return self'
    /\ journal log self' w records.
Proof.
  intros [Hfile Ho Hw Hrec Hst Hstored Hclean] Hk.
  destruct (py_eq (current self k) v) eqn:E.
  - exists self. split; [now apply setitem_same | now split].
  - eexists. split; [now apply setitem_new|]. split; try done.
    + unfold self_free. simpl. now rewrite lookup_insert_ne.
    + eapply dirty_stored_setitem; [exact Hstored | now apply setitem_new].
    + intros k' Hk'. simpl in *.
      rewrite lookup_insert_ne by set_solver. apply Hclean. set_solver.
Qed.

Lemma journal_commit self w records (now : string) :
  journal log self w records ->
  exists w' records',
    CensusBuildState_commit now self log w = (Return (), mkState self ∅, w')
    /\ journal log (mkState self ∅) w' records'
    /\ replay records' = _state self.
Proof.
  intros [Hfile Ho Hw Hrec Hst Hstored Hclean].
  destruct (decide (__dirty_keys self = ∅)) as [He|Hd].
  - exists w, records. rewrite commit_clean by done.
    destruct self as [ns dirty]. simpl in *. subst dirty.
    split; [reflexivity|]. split; [now split|].
    apply map_eq. intros k. apply Hclean. set_solver.
  - exists (appended log now (dirty_record self) w),
           (records ++ [dirty_record self]).
    split; [now apply commit_dirty|].
    assert (Hreplay : forall k,
               replay (records ++ [dirty_record self]) !! k = _state self !! k).
    { intros k. unfold replay. rewrite foldl_app. simpl. unfold update at 1.
      destruct (decide (k ∈ __dirty_keys self)) as [Hin|Hout].
      - assert (is_Some (_state self !! k)) as [x Hx]
          by (apply elem_of_dom; now apply Hstored).
        rewrite Hx. apply lookup_union_Some_l.
        now rewrite dirty_record_lookup, decide_True.
      - rewrite lookup_union_r; [now apply Hclean|].
        now rewrite dirty_record_lookup, decide_False. }
    split; [|now apply map_eq].
    split; simpl; try done.
    + rewrite lookup_insert_eq, Hfile. simpl.
      now rewrite fmap_app.
    + apply Forall_app. split; [done|]. constructor; [|done].
      unfold self_free. rewrite dirty_record_lookup.
      now destruct (decide ("self" ∈ __dirty_keys self)).
Qed.

Lemma journal_run (ops : list op) :
  forall self w records,
    journal log self w records -> "self" ∉ keys_set ops ->
    exists self' w' records',
      run log ops self w = (Return (), self', w')
      /\ journal log self' w' records'.
Proof.
  induction ops as [|o ops IH]; intros self w records Hj Hfree; simpl.
  - eauto.
  - destruct o as [k v|now]; simpl in *.
    + destruct (journal_setitem self w records k v Hj) as (self' & Hset & Hj');
        [set_solver|].
      rewrite Hset. apply (IH self' w records Hj'). set_solver.
    + destruct (journal_commit self w records now Hj) as (w' & records' & Hc & Hj' & _).
      rewrite Hc. now apply (IH _ w' records' Hj').
Qed.

(** X1: After a commit the log replays to the state in memory, for every
    build that keeps away from the key [self]. *)
Lemma replay_after_commit (ops : list op) (now : string)
    (kwargs : gmap string value) (w : World) :
  files w !! log = Some [] -> log ∉ unopenable w -> log ∉ unwritable w ->
  self_free kwargs -> "self" ∉ keys_set ops ->
  exists self' w',
    run log (ops ++ [Commit now]) (CensusBuildState_init kwargs) w
    = (Return (), self', w')
    /\ (CensusBuildState_load (Path log) w').1 = Return self'.
Proof.
  intros Hfile Ho Hw Hkw Hops.
  destruct (journal_run ops _ w [] (journal_init kwargs w Hfile Ho Hw Hkw) Hops)
    as (self1 & w1 & records1 & Hrun & Hj1).
  destruct (journal_commit self1 w1 records1 now Hj1)
    as (w2 & records2 & Hc & Hj2 & Hreplay).
  exists (mkState self1 ∅), w2. rewrite run_app, Hrun. simpl. rewrite Hc.
  split; [reflexivity|].
  erewrite load_records.
  - simpl. unfold Namespace_init. rewrite Hreplay. now destruct self1 as [[?] ?].
  - simpl. unfold open_read. now rewrite (journal_file _ _ _ _ Hj2).
  - exact (journal_records _ _ _ _ Hj2).
Qed.
End Journal.

(** ** Loading the state *)

(** C4: a state that [load] returns has no dirty key, whatever it was
    loaded from; a stream without documents loads as the state without keys;
    and a stream of records written by [commit] always loads. *)
Theorem load_leaves_no_dirty_key :
  (forall file w self w',
      CensusBuildState_load file w = (Return self, w') -> __dirty_keys self = ∅)
  /\ (forall w,
        CensusBuildState_load (Stream []) w
        = (Return (mkState (Namespace_init ∅) ∅), w))
  /\ (forall records w,
        Forall self_free records ->
        CensusBuildState_load (Stream (record_document <$> records)) w
        = (Return (mkState (Namespace_init (replay records)) ∅), w)).
Proof.
  split; [|split].
  - intros file w self w'. unfold CensusBuildState_load.
    destruct (read_documents file w) as [[documents|e] w1]; simpl; [|discriminate].
    destruct (reduce_update documents) as [acc|e]; simpl; [|discriminate].
    destruct (keywords acc) as [kwargs|e]; simpl; [|discriminate].
    intros H. now simplify_eq.
  - reflexivity.
  - intros records w Hfree. now apply load_records.
Qed.

Lemma load_leaves_no_dirty_key_witness :
  exists self,
    CensusBuildState_load (Stream [VDict [(VStr "a", VInt 1)]]) example_world
    = (Return self, example_world)
    /\ _state self !! "a" = Some (VInt 1)
    /\ __dirty_keys self = ∅.
Proof.
  eexists. split; [vm_compute; reflexivity|]. split; [vm_compute; reflexivity|].
  apply (proj1 load_leaves_no_dirty_key
               (Stream [VDict [(VStr "a", VInt 1)]]) example_world _ example_world).
  vm_compute. reflexivity.
Defined.

(** C1: a build that sets the key [self] and commits leaves a log that
    [load] cannot replay: the record holds the key, and [load] hands the
    replayed keys to the constructor as keyword arguments, where [self]
    collides with the parameter of that name. *)
Theorem replay_raises_on_key_self :
  let '(r, self, w) :=
    run "state.yaml" [SetItem "self" (VInt 1); Commit "t"]
        (CensusBuildState_init ∅) example_world in
  r = Return ()
  /\ _state self = {["self" := VInt 1]}
  /\ __dirty_keys self = ∅
  /\ files w !! "state.yaml" = Some [record_document {["self" := VInt 1]}]
  /\ (CensusBuildState_load (Path "state.yaml") w).1 = Raise (TypeError None).
Proof. vm_compute. repeat split. Qed.

(** The scenarios of two commits: the second record wins for [a]. *)
Example replay_two_commits :
  let '(r, self, w) :=
    run "state.yaml"
        [SetItem "a" (VInt 1); Commit "t1";
         SetItem "a" (VInt 2); SetItem "b" (VInt 3); Commit "t2"]
        (CensusBuildState_init ∅) example_world in
  r = Return ()
  /\ files w !! "state.yaml"
     = Some [record_document {["a" := VInt 1]};
             record_document {["a" := VInt 2; "b" := VInt 3]}]
  /\ (CensusBuildState_load (Path "state.yaml") w).1 = Return self
  /\ _state self = {["a" := VInt 2; "b" := VInt 3]}.
Proof. vm_compute. repeat split. Qed.

(** ** Writing a key: where the code departs *)

(** C3: on a state without the key [k], writing [None] to [k] neither
    stores the key nor marks it dirty, although the key is missing and so
    has no value that could equal [None]: reading it back raises
    [KeyError].  The plain [MutableNamespace] stores it. *)
Theorem setitem_None_on_missing_key :
  let self := CensusBuildState_init ∅ in
  _state self !! "k" = None
  /\ CensusBuildState_setitem self (VStr "k") VNone = Return self
  /\ Namespace_getitem self "k" = Raise (KeyError "k")
  /\ MutableNamespace_setitem self (VStr "k") VNone
     = Return (mkNamespace {["k" := VNone]}).
Proof. vm_compute. repeat split. Qed.

(** C5: on a [CensusBuildState], writing [None] under the integer key [1]
    returns without an error and without a change; the plain
    [MutableNamespace] raises [TypeError] for the same write. *)
Theorem setitem_None_on_integer_key :
  let self := CensusBuildState_init ∅ in
  is_str (VInt 1) = false
  /\ CensusBuildState_setitem self (VInt 1) VNone = Return self
  /\ MutableNamespace_setitem self (VInt 1) VNone = Raise (TypeError None).
Proof. vm_compute. repeat split. Qed.

(** ** Loading the configuration *)

Lemma keywords_returns (items : dict) :
  Forall keyword_key items ->
  exists kwargs,
    keywords items = Return kwargs
    /\ forall k, kwargs !! k = dict_get items (VStr k).
Proof.
  induction 1 as [|[key v] items (k & Hkey & Hk) _ (kwargs & Hkw & Hget)]; simpl in *.
  - exists ∅. split; [reflexivity|]. intros k. apply lookup_empty.
  - subst key. apply String.eqb_neq in Hk. rewrite Hk, Hkw. simpl.
    eexists. split; [reflexivity|]. intros j.
    cbn [dict_get]. rewrite ?py_eq_str_eqb.
    destruct (String.eqb k j) eqn:E.
    + apply String.eqb_eq in E. subst j. apply lookup_insert_eq.
    + apply String.eqb_neq in E. rewrite lookup_insert_ne by done. apply Hget.
Qed.

Lemma config_lookup (host : Host) (kwargs : gmap string value) (k : string) :
  _state (CensusBuildConfig_init host kwargs) !! k
  = match kwargs !! k with
    | Some v => Some v
    | None => CENSUS_CONFIG_DEFAULTS host !! k
    end.
Proof.
  simpl. unfold update. rewrite lookup_union.
  destruct (kwargs !! k), (CENSUS_CONFIG_DEFAULTS host !! k); reflexivity.
Qed.

(** C6, amended: for a user document that is empty or whose top level is
    a mapping with string keys only (the key [self] aside), [load] returns
    the defaults overridden key by key by the user mapping: a key of the
    document has the value of the document, any other key its default.
    For the empty document that is the defaults. *)
Theorem load_config_overrides_defaults
    (host : Host) (file : source) (w w' : World)
    (documents : list value) (user : dict) :
  read_documents file w = (Return documents, w') ->
  user_mapping documents = Some user ->
  Forall keyword_key user ->
  exists config,
    CensusBuildConfig_load host file w = (Return config, w')
    /\ (forall k,
          _state config !! k
          = match dict_get user (VStr k) with
            | Some v => Some v
            | None => CENSUS_CONFIG_DEFAULTS host !! k
            end)
    /\ (user = [] -> _state config = CENSUS_CONFIG_DEFAULTS host).
Proof.
  intros Hread Huser Hkeys.
  destruct (keywords_returns user Hkeys) as (kwargs & Hkw & Hget).
  exists (CensusBuildConfig_init host kwargs). split; [|split].
  - unfold CensusBuildConfig_load. rewrite Hread.
    destruct documents as [|[| | | | |items] [|]]; simpl in Huser;
      try discriminate; simplify_eq; simpl in *.
    + now simplify_eq.
    + now simplify_eq.
    + now rewrite Hkw.
  - intros k. now rewrite config_lookup, Hget.
  - intros ->. simpl in Hkw. simplify_eq. simpl. unfold update.
    now rewrite (left_id_L ∅ (∪)).
Qed.

Lemma load_config_overrides_defaults_witness :
  exists config,
    CensusBuildConfig_load example_host
      (Stream [VDict [(VStr "max_workers", VInt 8)]]) example_world
    = (Return config, example_world)
    /\ _state config !! "max_workers" = Some (VInt 8)
    /\ _state config !! "consolidate" = Some (VBool true).
Proof.
  destruct (load_config_overrides_defaults example_host
              (Stream [VDict [(VStr "max_workers", VInt 8)]])
              example_world example_world
              [VDict [(VStr "max_workers", VInt 8)]]
              [(VStr "max_workers", VInt 8)])
    as (config & Hload & Hlookup & _).
  - reflexivity.
  - reflexivity.
  - repeat constructor. exists "max_workers". split; [reflexivity | discriminate].
  - exists config. split; [exact Hload|]. rewrite !Hlookup.
    split; vm_compute; reflexivity.
Defined.

(** C6, as stated, fails: a document whose top level is the mapping
    [{1: "x"}] does not load. *)
Lemma load_config_integer_key_raises :
  is_dict (VDict [(VInt 1, VStr "x")]) = true
  /\ CensusBuildConfig_load example_host
       (Stream [VDict [(VInt 1, VStr "x")]]) example_world
     = (Raise (TypeError None), example_world).
Proof. split; reflexivity. Qed.

(** C7, amended: a document whose top level is neither a mapping nor null
    makes [load] raise the [TypeError] of a malformed configuration; no
    configuration is returned. *)
Theorem load_config_rejects_non_mapping
    (host : Host) (file : source) (w w' : World) (document : value) :
  read_documents file w = (Return [document], w') ->
  is_dict document = false -> document ≠ VNone ->
  CensusBuildConfig_load host file w
  = (Raise (TypeError (Some "YAML config file malformed - expected top-level dictionary")),
     w').
Proof.
  intros Hread Hdict Hnone. unfold CensusBuildConfig_load. rewrite Hread.
  destruct document; simpl in *; congruence.
Qed.

Lemma load_config_rejects_non_mapping_witness :
  CensusBuildConfig_load example_host (Stream [VList [VStr "a"; VStr "b"]]) example_world
  = (Raise (TypeError (Some "YAML config file malformed - expected top-level dictionary")),
     example_world).
Proof.
  apply (load_config_rejects_non_mapping example_host
           (Stream [VList [VStr "a"; VStr "b"]]) example_world example_world
           (VList [VStr "a"; VStr "b"])).
  - reflexivity.
  - reflexivity.
  - discriminate.
Defined.

(** C7, as stated, fails: the document [null] has a top level that is not
    a mapping, and it loads as the defaults. *)
Lemma load_config_null_document_loads :
  is_dict VNone = false
  /\ CensusBuildConfig_load example_host (Stream [VNone]) example_world
     = (Return (CensusBuildConfig_init example_host ∅), example_world).
Proof. split; reflexivity. Qed.

(** ** Paths of a build *)



(** A configuration always has a build tag: the default one, unless the
    keyword arguments give another. *)
Lemma config_build_tag (host : Host) (kwargs : gmap string value) :
  _state (CensusBuildConfig_init host kwargs) !! "build_tag"
  = Some (default (VStr (today host)) (kwargs !! "build_tag")).
Proof.
  rewrite config_lookup. destruct (kwargs !! "build_tag"); reflexivity.
Qed.

(** C8: for build arguments over a configuration, [soma_path] and
    [h5ads_path] are the working directory joined with the build tag of
    the configuration and then with [soma] and [h5ads], when the build
    tag is a string; when it is not, both raise the [TypeError] of a
    non-string build tag. *)
Theorem paths_join_the_build_tag
    (host : Host) (kwargs : gmap string value)
    (working_dir : PosixPath) (state : CensusBuildState) :
  let self := mkArgs working_dir (CensusBuildConfig_init host kwargs) state in
  exists build_tag,
    _state (config self) !! "build_tag" = Some build_tag
    /\ match build_tag with
       | VStr tag =>
           soma_path self = Return (working_dir / tag / "soma")%path
           /\ h5ads_path self = Return (working_dir / tag / "h5ads")%path
       | _ =>
           soma_path self
           = Raise (TypeError (Some "Configuration contains non-string build_tag."))
           /\ h5ads_path self
              = Raise (TypeError (Some "Configuration contains non-string build_tag."))
       end.
Proof.
  intros self. eexists. split; [apply config_build_tag|].
  unfold soma_path, h5ads_path, build_tag, Namespace_getattr, Namespace_getitem.
  subst self. cbn [config]. rewrite config_build_tag.
  destruct (default (VStr (today host)) (kwargs !! "build_tag")); simpl; auto.
Qed.

Example soma_path_default :
  soma_path (mkArgs (parse_path "/mnt/build")
                    (CensusBuildConfig_init example_host ∅)
                    (CensusBuildState_init ∅))
  = Return (mkPath "/" ["mnt"; "build"; "2023-05-01"; "soma"]).
Proof. vm_compute. reflexivity. Qed.

Example h5ads_path_integer_tag :
  h5ads_path (mkArgs (parse_path "/mnt/build")
                     (CensusBuildConfig_init example_host {["build_tag" := VInt 2023]})
                     (CensusBuildState_init ∅))
  = Raise (TypeError (Some "Configuration contains non-string build_tag.")).
Proof. vm_compute. reflexivity. Qed.

(** * Further properties *)

(** ** The paths of one commit *)

(** The comprehension of [commit] can only fail on a key that is not
    stored. *)
Lemma comprehension_raises (self : CensusBuildState) (e : exn) :
  dirty_items self = Raise e -> exists key, e = KeyError key.
Proof.
  unfold dirty_items.
  induction (elements (__dirty_keys self)) as [|k keys IH]; simpl; intros He.
  - discriminate.
  - destruct (Namespace_getitem self k) as [v|e'] eqn:Hget; simpl in He.
    + destruct (foldr _ _ keys) as [d|e'] eqn:Hrest; simpl in He; [discriminate|].
      simplify_eq. now apply IH.
    + simplify_eq. unfold Namespace_getitem in Hget.
      destruct (_state self !! k); simplify_eq. eauto.
Qed.

(** The five ways a commit can end: nothing to write; a dirty key that is
    not stored; a log that cannot be opened; a log that cannot be written;
    a record appended. *)
Lemma commit_cases (now log : string) (self : CensusBuildState) (w : World) :
  CensusBuildState_commit now self log w = (Return (), self, w)
  \/ (exists key, CensusBuildState_commit now self log w = (Raise (KeyError key), self, w))
  \/ CensusBuildState_commit now self log w
     = (Raise (OSError log), mkState self ∅, record_event (Open log "a") w)
  \/ (exists body,
        CensusBuildState_commit now self log w
        = (Raise (OSError log), mkState self ∅,
           mkWorld (<[log := default [] (files w !! log)]> (files w))
                   (unopenable w) (unwritable w)
                   (Write log now body :: Open log "a" :: trace w)))
  \/ (exists body,
        CensusBuildState_commit now self log w
        = (Return (), mkState self ∅, appended log now body w)).
Proof.
  unfold CensusBuildState_commit.
  destruct (bool_decide (__dirty_keys self ≠ ∅)); [|auto].
  destruct (dirty_items self) as [body|e] eqn:Hitems.
  - unfold open_append.
    destruct (bool_decide (log ∈ unopenable w)); [auto|].
    unfold write_record. simpl.
    destruct (bool_decide (log ∈ unwritable w)).
    + right. right. right. left. now exists body.
    + right. right. right. right. exists body. unfold appended.
      now rewrite lookup_insert_eq, insert_insert_eq.
  - right. left. apply comprehension_raises in Hitems as [key ->]. eauto.
Qed.

(** ** What a build does to the state and to the files *)

Lemma insert_log_prefix (log p : string) (files : gmap string (list value))
    (new : list value) :
  default [] (files !! p)
  `prefix_of` default [] (<[log := default [] (files !! log) ++ new]> files !! p).
Proof.
  destruct (decide (p = log)) as [->|Hp].
  - rewrite lookup_insert_eq. simpl. now exists new.
  - now rewrite lookup_insert_ne.
Qed.

Lemma commit_effects (now log : string) (self : CensusBuildState) (w : World) :
  _state (CensusBuildState_commit now self log w).1.2 = _state self
  /\ unopenable (CensusBuildState_commit now self log w).2 = unopenable w
  /\ unwritable (CensusBuildState_commit now self log w).2 = unwritable w
  /\ (forall p, default [] (files w !! p)
                `prefix_of` default [] (files (CensusBuildState_commit now self log w).2 !! p))
  /\ (forall p, p ≠ log ->
                files (CensusBuildState_commit now self log w).2 !! p = files w !! p)
  /\ (exists new, trace (CensusBuildState_commit now self log w).2 = new ++ trace w
                  /\ Forall (journal_event log) new).
Proof.
  destruct (commit_cases now log self w)
    as [H|[[key H]|[H|[[body H]|[body H]]]]]; rewrite H; simpl;
    do 3 (split; [reflexivity|]).
  - split; [done|]. split; [now intros|]. exists []. split; [done|constructor].
  - split; [done|]. split; [now intros|]. exists []. split; [done|constructor].
  - split; [done|]. split; [now intros|]. exists [Open log "a"]. split; [done|].
    constructor; [now left|]. constructor.
  - split; [|split].
    + intros p. generalize (insert_log_prefix log p (files w) []).
      now rewrite app_nil_r.
    + intros p Hp. now rewrite lookup_insert_ne.
    + exists [Write log now body; Open log "a"]. split; [done|].
      constructor; [right; eauto|]. constructor; [now left|]. constructor.
  - split; [|split].
    + intros p. apply insert_log_prefix.
    + intros p Hp. now rewrite lookup_insert_ne.
    + exists [Write log now body; Open log "a"]. split; [done|].
      constructor; [right; eauto|]. constructor; [now left|]. constructor.
Qed.

Lemma step_effects (log : string) (o : op) (self : CensusBuildState) (w : World) :
  dom (_state self) ⊆ dom (_state (step log o self w).1.2)
  /\ unopenable (step log o self w).2 = unopenable w
  /\ unwritable (step log o self w).2 = unwritable w
  /\ (forall p, default [] (files w !! p)
                `prefix_of` default [] (files (step log o self w).2 !! p))
  /\ (forall p, p ≠ log -> files (step log o self w).2 !! p = files w !! p)
  /\ (exists new, trace (step log o self w).2 = new ++ trace w
                  /\ Forall (journal_event log) new).
Proof.
  destruct o as [k v|now].
  - assert (Hdom : dom (_state self) ⊆ dom (_state (step log (SetItem k v) self w).1.2)).
    { simpl. destruct (py_eq (current self k) v) eqn:E.
      - now rewrite setitem_same.
      - rewrite setitem_new by done. simpl. rewrite dom_insert_L. set_solver. }
    split; [exact Hdom|]. simpl.
    destruct (CensusBuildState_setitem self (VStr k) v); simpl;
      do 3 (split; [done|]); (split; [now intros|]);
      exists []; (split; [done|constructor]).
  - destruct (commit_effects now log self w) as (Hst & Hrest).
    split; [|exact Hrest]. simpl. now rewrite Hst.
Qed.

Lemma run_effects (log : string) (ops : list op) :
  forall (self : CensusBuildState) (w : World),
    dom (_state self) ⊆ dom (_state (run log ops self w).1.2)
    /\ unopenable (run log ops self w).2 = unopenable w
    /\ unwritable (run log ops self w).2 = unwritable w
    /\ (forall p, default [] (files w !! p)
                  `prefix_of` default [] (files (run log ops self w).2 !! p))
    /\ (forall p, p ≠ log -> files (run log ops self w).2 !! p = files w !! p)
    /\ (exists new, trace (run log ops self w).2 = new ++ trace w
                    /\ Forall (journal_event log) new).
Proof.
  induction ops as [|o ops IH]; intros self w.
  - simpl. do 4 (split; [done|]). split; [now intros|].
    exists []. split; [done|constructor].
  - destruct (step_effects log o self w) as (Hd & Ho & Hw & Hp & Hf & new1 & Ht & Hn).
    cbn [run]. destruct (step log o self w) as [[[[]|e] self1] w1];
      cbn [fst snd] in *.
    + destruct (IH self1 w1) as (Hd' & Ho' & Hw' & Hp' & Hf' & new2 & Ht' & Hn').
      split; [set_solver|]. split; [congruence|]. split; [congruence|].
      split; [intros p; etrans; [apply Hp | apply Hp']|].
      split; [intros p Hne; rewrite Hf' by done; now apply Hf|].
      exists (new2 ++ new1). split.
      * now rewrite Ht', Ht, app_assoc.
      * now apply Forall_app.
    + do 5 (split; [done|]). now exists new1.
Qed.

(** X8: A build never removes a key: whatever it sets and commits, and however
    it ends, every key stored before is stored after. *)
Theorem build_never_drops_a_key
    (log : string) (ops : list op) (self : CensusBuildState) (w : World) :
  dom (_state self) ⊆ dom (_state (run log ops self w).1.2).
Proof. apply run_effects. Qed.

(** X9: A build only appends: in every file the documents that were there are
    still there, in front of what was added, and no file but the log is
    touched. *)
Theorem build_only_appends_to_its_log
    (log : string) (ops : list op) (self : CensusBuildState) (w : World) :
  (forall p, default [] (files w !! p)
             `prefix_of` default [] (files (run log ops self w).2 !! p))
  /\ (forall p, p ≠ log -> files (run log ops self w).2 !! p = files w !! p).
Proof.
  destruct (run_effects log ops self w) as (_ & _ & _ & Hp & Hf & _). now split.
Qed.

(** X10: All the input and output of a build is on its log: each call it adds
    to the trace opens the log for appending or writes a record to it. *)
Theorem build_io_is_on_its_log
    (log : string) (ops : list op) (self : CensusBuildState) (w : World) :
  exists new,
    trace (run log ops self w).2 = new ++ trace w
    /\ Forall (journal_event log) new.
Proof. apply run_effects. Qed.

Lemma step_outcome (log : string) (o : op) (self : CensusBuildState) (w : World) :
  dirty_stored self ->
  ((step log o self w).1.1 = Return ()
   \/ (step log o self w).1.1 = Raise (OSError log))
  /\ (log ∉ unopenable w -> log ∉ unwritable w ->
      (step log o self w).1.1 = Return ()).
Proof.
  intros Hwf. destruct o as [k v|now]; simpl.
  - destruct (setitem_str_returns self k v) as [self' ->]. simpl. auto.
  - destruct (decide (__dirty_keys self = ∅)) as [He|Hd].
    { rewrite commit_clean by done. simpl. auto. }
    destruct (decide (log ∈ unopenable w)) as [Ho|Ho].
    { rewrite commit_cannot_open by done. simpl. split; [auto|]. now intros. }
    destruct (decide (log ∈ unwritable w)) as [Hw|Hw].
    + rewrite commit_cannot_write by done. simpl. split; [auto|]. now intros.
    + rewrite commit_dirty by done. simpl. auto.
Qed.

(** X7: A build over string keys can fail in one way only: by the [OSError]
    of its log.  No write and no commit raises [KeyError] or [TypeError],
    and with a log that can be opened and written the build runs to its
    end. *)
Theorem build_fails_only_on_its_log
    (log : string) (ops : list op) (self : CensusBuildState) (w : World) :
  dirty_stored self ->
  ((run log ops self w).1.1 = Return ()
   \/ (run log ops self w).1.1 = Raise (OSError log))
  /\ (log ∉ unopenable w -> log ∉ unwritable w ->
      (run log ops self w).1.1 = Return ()).
Proof.
  revert self w. induction ops as [|o ops IH]; intros self w Hwf.
  - simpl. auto.
  - destruct (step_invariant log o self w Hwf) as (Hwf' & _ & _).
    destruct (step_outcome log o self w Hwf) as (Hout & Hok).
    destruct (step_effects log o self w) as (_ & Ho & Hw & _).
    cbn [run]. destruct (step log o self w) as [[[[]|e] self1] w1];
      cbn [fst snd] in *.
    + destruct (IH self1 w1 Hwf') as (Hout' & Hok'). split; [exact Hout'|].
      intros Hno Hnw. apply Hok'; congruence.
    + split; [exact Hout|exact Hok].
Qed.

Lemma build_fails_only_on_its_log_witness :
  (run "state.yaml" [SetItem "c" VNone; Commit "t1"; SetItem "a" (VInt 2); Commit "t2"]
       example_state example_world).1.1 = Return ().
Proof.
  apply (build_fails_only_on_its_log "state.yaml"
           [SetItem "c" VNone; Commit "t1"; SetItem "a" (VInt 2); Commit "t2"]
           example_state example_world example_state_stored).
  - by_computation.
  - by_computation.
Defined.

(** ** Resuming from a log *)

Lemma replay_lookup (k : string) (records : list (gmap string value)) :
  forall m : gmap string value,
    foldl update m records !! k
    = foldl (fun found record =>
               match record !! k with Some v => Some v | None => found end)
            (m !! k) records.
Proof.
  induction records as [|record records IH]; intros m; simpl; [reflexivity|].
  rewrite IH. f_equal. unfold update. rewrite lookup_union.
  destruct (record !! k), (m !! k); reflexivity.
Qed.

Lemma replay_self_free (records : list (gmap string value)) :
  Forall self_free records -> self_free (replay records).
Proof.
  intros Hfree. unfold self_free, replay. rewrite replay_lookup, lookup_empty.
  induction Hfree as [|record records Hrecord _ IH]; simpl; [reflexivity|].
  unfold self_free in Hrecord. now rewrite Hrecord.
Qed.

Lemma load_log (log : string) (w : World) (records : list (gmap string value)) :
  files w !! log = Some (record_document <$> records) ->
  Forall self_free records ->
  CensusBuildState_load (Path log) w
  = (Return (mkState (Namespace_init (replay records)) ∅),
     record_event (Open log "r") w).
Proof.
  intros Hfile Hfree. apply load_records; [|exact Hfree].
  simpl. unfold open_read. now rewrite Hfile.
Qed.

Lemma journal_load (log : string) (w : World) (records : list (gmap string value)) :
  files w !! log = Some (record_document <$> records) ->
  log ∉ unopenable w -> log ∉ unwritable w ->
  Forall self_free records ->
  journal log (mkState (Namespace_init (replay records)) ∅)
          (record_event (Open log "r") w) records.
Proof.
  intros Hfile Ho Hw Hfree.
  split; try done. simpl. now apply replay_self_free.
Qed.

(** X2: A build resumed from its log: the state is loaded from the records
    already there, keys are set and commits made, and after a last commit
    the log replays to exactly the state in memory (for records and keys
    other than [self], and a log that can be opened and written). *)
Theorem resumed_build_replays
    (log now : string) (records : list (gmap string value))
    (ops : list op) (w : World) :
  files w !! log = Some (record_document <$> records) ->
  Forall self_free records ->
  log ∉ unopenable w -> log ∉ unwritable w ->
  "self" ∉ keys_set ops ->
  exists self0 w0 self' w',
    CensusBuildState_load (Path log) w = (Return self0, w0)
    /\ _state self0 = replay records
    /\ run log (ops ++ [Commit now]) self0 w0 = (Return (), self', w')
    /\ (CensusBuildState_load (Path log) w').1 = Return self'.
Proof.
  intros Hfile Hfree Ho Hw Hops.
  pose proof (journal_load log w records Hfile Ho Hw Hfree) as Hj0.
  destruct (journal_run log ops _ _ records Hj0 Hops)
    as (self1 & w1 & records1 & Hrun & Hj1).
  destruct (journal_commit log self1 w1 records1 now Hj1)
    as (w2 & records2 & Hc & Hj2 & Hreplay).
  eexists _, _, (mkState self1 ∅), w2.
  split; [exact (load_log log w records Hfile Hfree)|]. split; [reflexivity|].
  rewrite run_app, Hrun. simpl. rewrite Hc. split; [reflexivity|].
  rewrite (load_log log w2 records2);
    [|exact (journal_file _ _ _ _ Hj2)|exact (journal_records _ _ _ _ Hj2)].
  simpl. unfold Namespace_init. rewrite Hreplay. now destruct self1 as [[?] ?].
Qed.

Lemma resumed_build_replays_witness :
  exists self0 w0 self' w',
    CensusBuildState_load (Path "state.yaml") resumed_world = (Return self0, w0)
    /\ _state self0 = replay [{["a" := VInt 1]}]
    /\ run "state.yaml" ([SetItem "a" (VInt 2); SetItem "b" VNone] ++ [Commit "t"])
           self0 w0 = (Return (), self', w')
    /\ (CensusBuildState_load (Path "state.yaml") w').1 = Return self'.
Proof.
  apply (resumed_build_replays "state.yaml" "t" [{["a" := VInt 1]}]
           [SetItem "a" (VInt 2); SetItem "b" VNone] resumed_world).
  - reflexivity.
  - repeat constructor.
  - by_computation.
  - by_computation.
  - by_computation.
Defined.





(** ** Logs that do not load *)

Lemma reduce_raised (e : exn) (documents : list value) :
  foldl (fun acc r => d ← acc; dict_update d r) (Raise e) documents = Raise e.
Proof. induction documents as [|d documents IH]; simpl; [reflexivity|exact IH]. Qed.

Lemma reduce_scalar (documents : list value) :
  Exists (fun d => not_iterable d = true) documents ->
  forall acc, exists e,
    foldl (fun acc r => d ← acc; dict_update d r) acc documents = Raise e.
Proof.
  induction 1 as [d documents Hd|d documents _ IH]; intros acc.
  - destruct acc as [acc|e]; simpl.
    + destruct d; try discriminate Hd; simpl; rewrite reduce_raised; eauto.
    + rewrite reduce_raised. eauto.
  - simpl. apply IH.
Qed.

(** X5: A stream in which some document is [None] (an empty document), a
    boolean or an integer does not load: [load] raises, whatever the other
    documents are. *)
Theorem load_rejects_scalar_document (documents : list value) (w : World) :
  Exists (fun d => not_iterable d = true) documents ->
  exists e, CensusBuildState_load (Stream documents) w = (Raise e, w).
Proof.
  intros Hbad. unfold CensusBuildState_load. simpl. unfold reduce_update.
  destruct (reduce_scalar documents Hbad (Return [])) as [e ->]. simpl. eauto.
Qed.

Lemma load_rejects_scalar_document_witness :
  exists e,
    CensusBuildState_load
      (Stream [record_document {["a" := VInt 1]}; VNone; record_document {["b" := VInt 2]}])
      example_world = (Raise e, example_world).
Proof.
  apply (load_rejects_scalar_document
           [record_document {["a" := VInt 1]}; VNone; record_document {["b" := VInt 2]}]
           example_world).
  right. left. reflexivity.
Defined.

(** ** Writing and reading keys *)

(** X13: A write to a [CensusBuildState] under a string key, when the key is
    stored already or the value is not [None], can be read back: the key
    then holds the value written, or the equal value it held before; and
    no other key has changed. *)
Theorem setitem_round_trip
    (self self' : CensusBuildState) (k : string) (v : value) :
  CensusBuildState_setitem self (VStr k) v = Return self' ->
  is_Some (_state self !! k) \/ v ≠ VNone ->
  (exists v', Namespace_getitem self' k = Return v'
              /\ (v' = v \/ py_eq v' v = true))
  /\ (forall j, j ≠ k -> _state self' !! j = _state self !! j).
Proof.
  intros Hset Hk. split; [now apply (setitem_then_getitem self)|].
  intros j Hj. destruct (py_eq (current self k) v) eqn:E.
  - rewrite setitem_same in Hset by done. now simplify_eq.
  - rewrite setitem_new in Hset by done. simplify_eq. simpl.
    now rewrite lookup_insert_ne.
Qed.

Lemma setitem_round_trip_witness :
  (exists v', Namespace_getitem
                (mkState (mkNamespace (<["a" := VInt 2]> (_state example_state)))
                         ({["a"]} ∪ __dirty_keys example_state)) "a" = Return v'
              /\ (v' = VInt 2 \/ py_eq v' (VInt 2) = true))
  /\ (forall j, j ≠ "a" ->
        _state (mkState (mkNamespace (<["a" := VInt 2]> (_state example_state)))
                        ({["a"]} ∪ __dirty_keys example_state)) !! j
        = _state example_state !! j).
Proof.
  apply (setitem_round_trip example_state _ "a" (VInt 2)).
  - reflexivity.
  - left. vm_compute. eauto.
Defined.

(** X15: A key that is not a string is refused: [MutableNamespace] raises
    [TypeError] for every value, and [CensusBuildState] for every value
    but [None]. *)
Theorem setitem_refuses_other_keys
    (self : CensusBuildState) (key v : value) :
  is_str key = false ->
  MutableNamespace_setitem self key v = Raise (TypeError None)
  /\ (v ≠ VNone -> is_TypeError (CensusBuildState_setitem self key v)).
Proof.
  intros Hkey. split.
  - now apply MutableNamespace_setitem_not_str.
  - intros Hv. now apply setitem_not_str.
Qed.

Lemma setitem_refuses_other_keys_witness :
  MutableNamespace_setitem example_state (VList [VStr "a"]) (VInt 1)
  = Raise (TypeError None)
  /\ (VInt 1 ≠ VNone ->
      is_TypeError (CensusBuildState_setitem example_state (VList [VStr "a"]) (VInt 1))).
Proof.
  apply (setitem_refuses_other_keys example_state (VList [VStr "a"]) (VInt 1)).
  reflexivity.
Defined.

(** X16: A write to a [MutableNamespace] under a string key always succeeds;
    the key is then in the namespace with the value written, the other
    keys read as before, and the length has grown by one exactly when the
    key is new. *)
Theorem MutableNamespace_setitem_then_read
    (self : Namespace) (k : string) (v : value) :
  exists self',
    MutableNamespace_setitem self (VStr k) v = Return self'
    /\ Namespace_getitem self' k = Return v
    /\ Namespace_contains self' k = true
    /\ (forall j, j ≠ k ->
          Namespace_getitem self' j = Namespace_getitem self j
          /\ Namespace_contains self' j = Namespace_contains self j)
    /\ Namespace_len self'
       = if Namespace_contains self k then Namespace_len self
         else S (Namespace_len self).
Proof.
  eexists. split; [reflexivity|].
  unfold Namespace_getitem, Namespace_contains, Namespace_len. simpl.
  rewrite lookup_insert_eq. split; [reflexivity|].
  split; [apply bool_decide_eq_true; eauto|]. split.
  - intros j Hj. now rewrite lookup_insert_ne.
  - destruct (_state self !! k) as [x|] eqn:Hk.
    + rewrite bool_decide_eq_true_2 by eauto.
      rewrite <- (insert_id (_state self) k x Hk) at 2.
      rewrite <- (insert_delete_eq (_state self) k x),
              <- (insert_delete_eq (_state self) k v).
      rewrite !map_size_insert_None by apply lookup_delete_eq. reflexivity.
    + rewrite bool_decide_eq_false_2 by (intros [? ?]; discriminate).
      now apply map_size_insert_None.
Qed.

(** ** The configuration *)

Lemma defaults_size (host : Host) : size (CENSUS_CONFIG_DEFAULTS host) = 15%nat.
Proof. reflexivity. Qed.

(** X17: A configuration holds every keyword argument as given and every
    default key: its keys are those of the arguments and of the defaults,
    at least fifteen of them, and an argument is never overridden.
    Building a configuration again from its own items gives it back. *)
Theorem config_keeps_arguments_and_defaults
    (host : Host) (kwargs : gmap string value) :
  kwargs ⊆ _state (CensusBuildConfig_init host kwargs)
  /\ dom (_state (CensusBuildConfig_init host kwargs))
     = dom kwargs ∪ dom (CENSUS_CONFIG_DEFAULTS host)
  /\ (15 <= Namespace_len (CensusBuildConfig_init host kwargs))%nat
  /\ CensusBuildConfig_init host (_state (CensusBuildConfig_init host kwargs))
     = CensusBuildConfig_init host kwargs.
Proof.
  unfold CensusBuildConfig_init, Namespace_init, Namespace_len, update. simpl.
  split; [apply map_union_subseteq_l|]. split; [apply dom_union_L|]. split.
  - rewrite <- (defaults_size host), <- !size_dom, dom_union_L.
    apply subseteq_size. set_solver.
  - f_equal. now rewrite <- (assoc_L (∪)), (idemp_L (∪)).
Qed.

(** ** Where the paths of a build lie *)



Lemma path_root_absolute (rest : string) :
  path_root (String "/"%char rest) ≠ "".
Proof.
  destruct rest as [|c1 rest1]; [discriminate|].
  destruct c1 as [[] [] [] [] [] [] [] []]; try discriminate.
  destruct rest1 as [|c2 rest2]; [discriminate|].
  destruct c2 as [[] [] [] [] [] [] [] []]; discriminate.
Qed.

(** X19: A build tag that starts with a slash replaces the working directory:
    both paths are the tag joined with the fixed name, whatever the
    working directory is. *)
Theorem absolute_build_tag_replaces_working_dir
    (host : Host) (kwargs : gmap string value)
    (working_dir : PosixPath) (state : CensusBuildState) (rest : string) :
  default (VStr (today host)) (kwargs !! "build_tag") = VStr (String "/"%char rest) ->
  soma_path (mkArgs working_dir (CensusBuildConfig_init host kwargs) state)
  = Return (parse_path (String "/"%char rest) / "soma")%path
  /\ h5ads_path (mkArgs working_dir (CensusBuildConfig_init host kwargs) state)
     = Return (parse_path (String "/"%char rest) / "h5ads")%path.
Proof.
  intros Htag.
  unfold soma_path, h5ads_path, build_tag, Namespace_getattr, Namespace_getitem.
  cbn [config]. rewrite config_build_tag, Htag. simpl mbind.
  assert (Hjoin : (working_dir / String "/"%char rest)%path
                  = parse_path (String "/"%char rest)).
  { unfold truediv. cbn [parse_path root].
    pose proof (path_root_absolute rest) as Hroot.
    apply String.eqb_neq in Hroot. now rewrite Hroot. }
  now rewrite Hjoin.
Qed.

Lemma absolute_build_tag_replaces_working_dir_witness :
  soma_path (mkArgs (parse_path "/mnt/build")
                    (CensusBuildConfig_init example_host {["build_tag" := VStr "/tmp/x"]})
                    (CensusBuildState_init ∅))
  = Return (parse_path "/tmp/x" / "soma")%path
  /\ h5ads_path (mkArgs (parse_path "/mnt/build")
                        (CensusBuildConfig_init example_host {["build_tag" := VStr "/tmp/x"]})
                        (CensusBuildState_init ∅))
     = Return (parse_path "/tmp/x" / "h5ads")%path.
Proof.
  apply (absolute_build_tag_replaces_working_dir example_host
           {["build_tag" := VStr "/tmp/x"]} (parse_path "/mnt/build")
           (CensusBuildState_init ∅) "tmp/x").
  reflexivity.
Defined.

(** ** Writing twice, and documents that are not mappings *)

(** X14: Writing a value that is equal to itself a second time changes
    nothing: neither the mapping nor the dirty keys. *)
Theorem setitem_twice
    (self self' : CensusBuildState) (k : string) (v : value) :
  CensusBuildState_setitem self (VStr k) v = Return self' ->
  py_eq v v = true ->
  CensusBuildState_setitem self' (VStr k) v = Return self'.
Proof.
  intros Hset Hv. destruct (py_eq (current self k) v) eqn:E.
  - rewrite setitem_same in Hset by done. simplify_eq. now apply setitem_same.
  - rewrite setitem_new in Hset by done. simplify_eq. apply setitem_same.
    unfold current. simpl. now rewrite lookup_insert_eq.
Qed.

Lemma setitem_twice_witness :
  CensusBuildState_setitem
    (mkState (mkNamespace (<["a" := VInt 2]> (_state example_state)))
             ({["a"]} ∪ __dirty_keys example_state))
    (VStr "a") (VInt 2)
  = Return (mkState (mkNamespace (<["a" := VInt 2]> (_state example_state)))
                    ({["a"]} ∪ __dirty_keys example_state)).
Proof.
  apply (setitem_twice example_state _ "a" (VInt 2)).
  - reflexivity.
  - reflexivity.
Defined.

Lemma dict_update_pairs_items (items : dict) :
  Forall (fun kv => hashable kv.1 = true) items ->
  forall acc,
    foldl dict_update_pair (Return acc) ((fun kv => VList [kv.1; kv.2]) <$> items)
    = Return (foldl (fun acc kv => dict_setitem acc kv.1 kv.2) acc items).
Proof.
  induction 1 as [|[k v] items Hk _ IH]; intros acc; simpl in *; [reflexivity|].
  rewrite Hk. apply IH.
Qed.

(** X6: [load] takes a document that lists [[key, value]] pairs for the
    mapping of those pairs: with such a document in the place of the
    mapping the stream loads to the same result, the same state or the
    same exception. *)
Theorem load_takes_pairs_for_a_mapping
    (before after : list value) (items : dict) (w : World) :
  Forall (fun kv => hashable kv.1 = true) items ->
  CensusBuildState_load (Stream (before ++ pairs_document items :: after)) w
  = CensusBuildState_load (Stream (before ++ VDict items :: after)) w.
Proof.
  intros Hkeys. unfold CensusBuildState_load. simpl. f_equal.
  assert (Hreduce : reduce_update (before ++ pairs_document items :: after)
                    = reduce_update (before ++ VDict items :: after)).
  { unfold reduce_update. rewrite !foldl_app. cbn [foldl]. f_equal.
    destruct (foldl _ (Return []) before) as [acc|e]; simpl; [|reflexivity].
    now apply dict_update_pairs_items. }
  now rewrite Hreduce.
Qed.

Lemma load_takes_pairs_for_a_mapping_witness :
  CensusBuildState_load
    (Stream ([] ++ pairs_document [(VStr "a", VInt 1); (VStr "b", VNone)] :: []))
    example_world
  = CensusBuildState_load
      (Stream ([] ++ VDict [(VStr "a", VInt 1); (VStr "b", VNone)] :: []))
      example_world.
Proof.
  apply (load_takes_pairs_for_a_mapping [] []
           [(VStr "a", VInt 1); (VStr "b", VNone)] example_world).
  repeat constructor.
Defined.

(** ** A build from scratch *)

Lemma replay_after_commit_witness :
  exists self' w',
    run "state.yaml"
        ([SetItem "a" (VInt 1); Commit "t1"; SetItem "a" (VInt 2); SetItem "b" (VInt 3)]
         ++ [Commit "t2"])
        (CensusBuildState_init {["c" := VNone]}) example_world
    = (Return (), self', w')
    /\ (CensusBuildState_load (Path "state.yaml") w').1 = Return self'.
Proof.
  apply (replay_after_commit "state.yaml"
           [SetItem "a" (VInt 1); Commit "t1"; SetItem "a" (VInt 2); SetItem "b" (VInt 3)]
           "t2" {["c" := VNone]} example_world).
  - reflexivity.
  - by_computation.
  - by_computation.
  - reflexivity.
  - by_computation.
Defined.

(** ** One write between two commits *)

(** X11: On a state without dirty keys, writing a key to a value equal to the
    stored one and committing does nothing at all: the state and the
    world, trace included, are as they were. *)
Theorem unchanged_write_commits_nothing
    (log now : string) (self : CensusBuildState) (w : World)
    (k : string) (v : value) :
  __dirty_keys self = ∅ ->
  py_eq (current self k) v = true ->
  run log [SetItem k v; Commit now] self w = (Return (), self, w).
Proof.
  intros Hclean Heq. simpl. rewrite setitem_same by done.
  now rewrite commit_clean.
Qed.

Lemma unchanged_write_commits_nothing_witness :
  run "state.yaml" [SetItem "a" (VBool true); Commit "t"]
      (mkState example_state ∅) example_world
  = (Return (), mkState example_state ∅, example_world).
Proof.
  apply (unchanged_write_commits_nothing "state.yaml" "t"
           (mkState example_state ∅) example_world "a" (VBool true)).
  - reflexivity.
  - reflexivity.
Defined.

(** X12: On a state without dirty keys, writing a key to a value that differs
    from the stored one and committing appends the record of that one key
    and value, and nothing else; the state is left with the new value and
    no dirty key. *)
Theorem changed_write_commits_the_delta
    (log now : string) (self : CensusBuildState) (w : World)
    (k : string) (v : value) :
  __dirty_keys self = ∅ ->
  py_eq (current self k) v = false ->
  log ∉ unopenable w -> log ∉ unwritable w ->
  run log [SetItem k v; Commit now] self w
  = (Return (), mkState (mkNamespace (<[k := v]> (_state self))) ∅,
     appended log now {[k := v]} w).
Proof.
  intros Hclean Hne Ho Hw. simpl. rewrite setitem_new by done.
  rewrite commit_dirty; try done.
  - simpl. repeat f_equal. apply map_eq. intros j.
    rewrite dirty_record_lookup. simpl. rewrite Hclean.
    destruct (decide (j = k)) as [->|Hj].
    + rewrite decide_True by set_solver.
      now rewrite lookup_insert_eq, lookup_singleton_eq.
    + rewrite decide_False by set_solver.
      now rewrite lookup_singleton_ne.
  - unfold dirty_stored. simpl. rewrite Hclean, dom_insert_L. set_solver.
  - simpl. set_solver.
Qed.

Lemma changed_write_commits_the_delta_witness :
  run "state.yaml" [SetItem "a" (VInt 2); Commit "t"]
      (mkState example_state ∅) example_world
  = (Return (),
     mkState (mkNamespace (<["a" := VInt 2]> (_state (mkState example_state ∅)))) ∅,
     appended "state.yaml" "t" {["a" := VInt 2]} example_world).
Proof.
  apply (changed_write_commits_the_delta "state.yaml" "t"
           (mkState example_state ∅) example_world "a" (VInt 2)).
  - reflexivity.
  - reflexivity.
  - by_computation.
  - by_computation.
Defined.
